(** * use-query-factory: [createQueryHook] (src/index.ts)

    A shallow embedding of the hook factory and of the part of JavaScript it
    is written in: objects, spread and rest, nullish coalescing, calls of
    functions that live outside the module, and the closure handed to
    [useQuery].

    The factory never assigns to a property, so objects are immutable
    values here.  Everything outside the module ([useQuery], the [url] and
    [queryFn] of an endpoint, the network) acts on a world that is passed
    along; an asynchronous call is identified with the way it settles. *)

From stdpp Require Import gmap strings list fin_maps pretty.

#[local] Set Warnings "-register-all".
#[local] Open Scope Z_scope.

(** ** JavaScript values *)

(** Objects are finite maps from property names to values; an absent
    property and a property holding [undefined] are different objects
    (spread copies the second).  Numbers are the integral ones.  A function
    is either one defined outside the module, known by an identifier only,
    or the arrow function that [createQueryHook] builds at index.ts:104,
    kept with the five variables it captures. *)
Inductive value : Type :=
| VUndefined
| VNull
| VBool (b : bool)
| VNum (n : Z)
| VStr (s : string)
| VArr (elems : list value)
| VObj (props : gmap string value)
| VFun (id : N)
| VQueryFn (queryFn input params axiosConfig requestUrl : value).

Abbreviation obj := (gmap string value).

(** [o.k] *)
Definition prop (k : string) (o : obj) : value := default VUndefined (o !! k).

(** The own enumerable properties of a value, which is what [...v] copies:
    all of an object, the indices of an array or of a string, nothing of
    [undefined], [null], a boolean, a number or a function. *)
Definition indexed (l : list value) : obj :=
  list_to_map (imap (λ i v, (pretty i, v)) l).

Definition chars (s : string) : list value :=
  (λ c, VStr (String c EmptyString)) <$> String.list_ascii_of_string s.

Definition ownProps (v : value) : obj :=
  match v with
  | VObj o => o
  | VArr l => indexed l
  | VStr s => indexed (chars s)
  | _ => ∅
  end.

(** The members of an object literal, in source order. *)
Inductive member : Type :=
| Field (k : string) (v : value)
| Spread (v : value).

(** A later member overrides an earlier one of the same name. *)
Definition define (o : obj) (m : member) : obj :=
  match m with
  | Field k v => <[k := v]> o
  | Spread v => ownProps v ∪ o
  end.

Definition objlit (ms : list member) : obj := foldl define ∅ ms.

(** [const { k1, ..., kn, ...rest } = o] *)
Definition rest (ks : list string) (o : obj) : obj := foldr delete o ks.

(** [a ?? b] *)
Definition nullish (a b : value) : value :=
  match a with
  | VUndefined | VNull => b
  | _ => a
  end.

Definition typeError : value := VObj {[ "name" := VStr "TypeError" ]}.

(** ** Effects *)

(** A call ends by returning or by throwing; an asynchronous call is
    identified with its settlement (fulfilled or rejected). *)
Inductive outcome (A : Type) : Type :=
| Returned (a : A)
| Thrown (e : value).
Arguments Returned {A} a.
Arguments Thrown {A} e.

(** Everything outside the module (the cache of the query library, the
    network, the render state) is a world, threaded through the calls. *)
Definition M (World A : Type) : Type := World → outcome A * World.

#[global] Instance M_ret {World} : MRet (M World) :=
  λ A a w, (Returned a, w).

#[global] Instance M_bind {World} : MBind (M World) :=
  λ A B f m w,
    match m w with
    | (Returned a, w') => f a w'
    | (Thrown e, w') => (Thrown e, w')
    end.

Definition throw {World A} (e : value) : M World A :=
  λ w, (Thrown e, w).

Section createQueryHook.
Context {World : Type}.

(** The functions defined outside the module, by identifier: the [url]
    and [queryFn] of an endpoint, the callbacks among the options. *)
Variable callExtern : N → value → M World value.

(** [useQuery] of @tanstack/react-query. *)
Variable useQuery : value → M World value.

(** [f(arg)].  The arrow function of index.ts:104-118 calls the captured
    [queryFn] with one object: [input], [params], the [axiosConfig] with
    [url], [method] and [params] set last, then the members of its own
    argument. *)
Fixpoint call (f arg : value) : M World value :=
  match f with
  | VFun id => callExtern id arg
  | VQueryFn queryFn input params axiosConfig requestUrl =>
      call queryFn (VObj (objlit [
        Field "input" input;
        Field "params" params;
        Field "axiosConfig" (VObj (objlit [
          Spread axiosConfig;
          Field "url" requestUrl;
          Field "method" (VStr "GET");
          Field "params" params ]));
        Spread arg ]))
  | _ => throw typeError
  end.

(** index.ts:83-85 *)
Definition requestUrl (url input : value) : M World value :=
  match url with
  | VStr _ => mret url
  | _ => call url input
  end.

(** index.ts:90-94 *)
Definition queryKey (requestUrl params : value) : value :=
  VArr [VStr "GET"; requestUrl; params].

(** index.ts:77-128 *)
Definition createQueryHook (options : obj) : obj → M World value :=
  let url := prop "url" options in
  let queryFn := prop "queryFn" options in
  let defaultParams := prop "defaultParams" options in
  let factoryQueryOptions := rest ["url"; "queryFn"; "defaultParams"] options in
  λ instance,
    let input := prop "input" instance in
    let params := prop "params" instance in
    let axiosConfig := prop "axiosConfig" instance in
    let instanceQueryOptions := rest ["input"; "params"; "axiosConfig"] instance in
    requestUrl ← requestUrl url input;
    let params := nullish params defaultParams in
    let queryKey := queryKey requestUrl params in
    query ← useQuery (VObj (objlit [
      Field "refetchOnWindowFocus" (VBool false);
      Spread (VObj factoryQueryOptions);
      Spread (VObj instanceQueryOptions);
      Field "queryKey" queryKey;
      Field "queryFn" (VQueryFn queryFn input params axiosConfig requestUrl) ]));
    mret (VObj (objlit [ Spread query; Field "queryKey" queryKey ])).
End createQueryHook.

(** ** What an invocation does *)

Section behaviour.
Context {World : Type}.
Variable callExtern : N → value → M World value.

(** Started in world [w], the invoker reaches its call of [useQuery] in
    world [w1], hands it the object [opts], and returns what the hook
    returns with [key] as [queryKey] -- whatever the hook is. *)
Definition delegates (options instance : obj) (w : World)
    (opts : obj) (key : value) (w1 : World) : Prop :=
  ∀ useQuery : value → M World value,
    createQueryHook callExtern useQuery options instance w
    = (query ← useQuery (VObj opts);
       mret (VObj (<["queryKey" := key]> (ownProps query)))) w1.

(** Called with [ctx], the function [wrapper] calls [queryFn] with the one
    argument [arg] and settles as that call settles. *)
Definition forwards (wrapper ctx queryFn : value) (arg : obj) : Prop :=
  ∀ w, call callExtern wrapper ctx w = call callExtern queryFn (VObj arg) w.

(** A hook that, given [opts] in world [w], runs the function [fn] on the
    context [ctx] and, when that fails with [e], returns a result whose
    [error] is [e] and whose [data] is [undefined]. *)
Definition reports (useQuery : value → M World value)
    (opts : obj) (fn ctx : value) (w : World) : Prop :=
  ∀ e w',
    call callExtern fn ctx w = (Thrown e, w') →
    ∃ query,
      useQuery (VObj opts) w = (Returned (VObj query), w') ∧
      query !! "error" = Some e ∧
      prop "data" query = VUndefined.

(** The outcome of [f(arg)] is the same in every world. *)
Definition pure (f : value) : Prop :=
  ∀ arg w w', (call callExtern f arg w).1 = (call callExtern f arg w').1.
End behaviour.

(** The names that the invoker takes out of its argument, and the factory
    out of its own, before the remainder is passed on as query options. *)
Definition instanceNames : list string := ["input"; "params"; "axiosConfig"].
Definition factoryNames : list string := ["url"; "queryFn"; "defaultParams"].

(** The names of the argument object of [queryFn] that the invoker sets. *)
Definition requestNames : list string := ["input"; "params"; "axiosConfig"].

(** The names of the Axios config that the invoker sets. *)
Definition transportNames : list string := ["url"; "method"; "params"].

(** ** The endpoints of src/api/todos *)

(** [v.k], for a name [k] that is neither an index nor defined by a
    prototype: reading a property of [undefined] or [null] throws. *)
Definition get {World} (k : string) (v : value) : M World value :=
  match v with
  | VUndefined | VNull => throw typeError
  | VObj o => mret (prop k o)
  | _ => mret VUndefined
  end.

(** [v?.k], for such a name. *)
Definition optGet (k : string) (v : value) : value :=
  match v with
  | VObj o => prop k o
  | _ => VUndefined
  end.

(** [v ? ... : ...] *)
Definition truthy (v : value) : bool :=
  match v with
  | VUndefined | VNull => false
  | VBool b => b
  | VNum n => bool_decide (n ≠ 0)
  | VStr s => bool_decide (s ≠ "")
  | _ => true
  end.

(** The namespaces of get-many/index.ts and get-one/index.ts, without
    their [useQuery], which is the hook defined further down. *)
Module GetTodos.
Definition url : string := "/todos".
Definition queryKey (params : value) : value :=
  VArr [VStr "todos/many"; params].
End GetTodos.

Module GetOneTodo.
Definition url (slug : string) : string := "/todos/" +:+ slug.
Definition method : string := "GET".
Definition queryKey (slug : string) (params : value) : value :=
  VArr [VStr "get/todos"; VStr slug; params].
Definition queryParams (params : value) : value := params.
End GetOneTodo.

Section endpoints.
Context {World : Type}.

(** [axios] and [useQuery] are imported; [other] answers for every
    function and every argument that this section does not describe. *)
Variable axios : value → M World value.
Variable useQuery : value → M World value.
Variable other : N → value → M World value.

(** The arrow functions of get-many/use-query.ts (0: [url], 1: [queryFn])
    and of get-one/use-query.ts (2: [url], 3: [queryFn]).  [GetOneTodo.url]
    is applied to a string, as it is typed. *)
Definition endpoints (id : N) (arg : value) : M World value :=
  match id with
  | 0%N => mret (VStr GetTodos.url)
  | 1%N =>
      axiosConfig ← get "axiosConfig" arg;
      response ← axios axiosConfig;
      get "data" response
  | 2%N =>
      slug ← get "slug" arg;
      match slug with
      | VStr slug => mret (VStr (GetOneTodo.url slug))
      | _ => other id arg
      end
  | 3%N =>
      axiosConfig ← get "axiosConfig" arg;
      params ← get "params" arg;
      response ← axios (VObj (objlit [
        Spread axiosConfig;
        Field "params" (VObj (objlit [
          Field "verbose"
            (VStr (if truthy (optGet "verbose" params) then "1" else "0")) ])) ]));
      get "data" response
  | _ => other id arg
  end.

(** get-many/use-query.ts:5-13 *)
Definition todosOptions : obj :=
  {[ "url" := VFun 0; "queryFn" := VFun 1 ]}.

Definition useTodosQuery : obj → M World value :=
  createQueryHook endpoints useQuery todosOptions.

(** get-one/use-query.ts:6-24 *)
Definition todoOptions : obj :=
  {[ "url" := VFun 2;
     "defaultParams" := VObj {[ "verbose" := VBool true ]};
     "queryFn" := VFun 3 ]}.

Definition useTodoQuery : obj → M World value :=
  createQueryHook endpoints useQuery todoOptions.
End endpoints.

(** ** A small environment to run the hooks in *)

(** The world counts the requests served.  The server knows the list of
    todos and nothing else. *)
Definition notFound : value :=
  VObj {[ "name" := VStr "AxiosError";
          "response" := VObj {[ "status" := VNum 404;
                                "data" := VObj {[ "statusCode" := VNum 404;
                                                  "message" := VStr "Not Found" ]} ]} ]}.

Definition server (config : value) : M nat value :=
  λ n,
    match optGet "url" config with
    | VStr url =>
        if bool_decide (url = GetTodos.url)
        then (Returned (VObj {[ "status" := VNum 200;
                                "data" := VObj {[ "todos" := VArr [] ]} ]}), S n)
        else (Thrown notFound, S n)
    | _ => (Thrown notFound, S n)
    end.

Definition unknown : N → value → M nat value :=
  λ _ _, throw typeError.

Definition todos : N → value → M nat value :=
  endpoints server unknown.

(** A hook that runs the query function at once and reports how it
    settled. *)
Definition eager {World} (callExtern : N → value → M World value)
    (opts : value) : M World value :=
  λ w,
    let ctx := VObj {[ "queryKey" := optGet "queryKey" opts ]} in
    match call callExtern (optGet "queryFn" opts) ctx w with
    | (Returned data, w') =>
        (Returned (VObj {[ "status" := VStr "success";
                           "data" := data;
                           "error" := VNull ]}), w')
    | (Thrown e, w') =>
        (Returned (VObj {[ "status" := VStr "error";
                           "data" := VUndefined;
                           "error" := e ]}), w')
    end.

(** A hook before it has fetched anything. *)
Definition pending {World} (opts : value) : M World value :=
  mret (VObj {[ "status" := VStr "pending";
                "data" := VUndefined;
                "error" := VNull;
                "isLoading" := VBool true ]}).

(** Two call sites: page two of the list, and the todo [x] with the
    parameters left to the factory. *)
Definition pageTwo : obj :=
  {[ "input" := VNull; "params" := VObj {[ "page" := VNum 2 ]} ]}.

Definition todoX : obj :=
  {[ "input" := VObj {[ "slug" := VStr "x" ]} ]}.

(** The todo [x] with [verbose: false] and with [params: null]; a factory
    and a call site that both set [staleTime]; a factory and a call site
    that both try to set [queryKey]. *)
Definition todoXQuiet : obj :=
  <["params" := VObj {[ "verbose" := VBool false ]}]> todoX.

Definition todoXNull : obj :=
  {[ "input" := VObj {[ "slug" := VStr "x" ]}; "params" := VNull ]}.

Definition staleOptions : obj := <["staleTime" := VNum 300000]> todosOptions.

Definition freshPageTwo : obj := <["staleTime" := VNum 0]> pageTwo.

Definition keyedOptions : obj := <["queryKey" := VStr "factory"]> todosOptions.

Definition keyedPageTwo : obj := <["queryKey" := VStr "call site"]> pageTwo.

(** A factory whose [url] is the string itself, and a call site whose
    [axiosConfig] names a URL of its own. *)
Definition constantOptions : obj := <["url" := VStr GetTodos.url]> todosOptions.

Definition todoXElsewhere : obj :=
  <["axiosConfig" := VObj {[ "url" := VStr "/elsewhere";
                             "timeout" := VNum 1000 ]}]> todoX.

(** ** Further notions and call sites *)

(** [typeof v === "string"], and whether [v] can be called. *)
Definition isString (v : value) : bool :=
  match v with
  | VStr _ => true
  | _ => false
  end.

Definition callable (v : value) : bool :=
  match v with
  | VFun _ | VQueryFn _ _ _ _ _ => true
  | _ => false
  end.

(** The list endpoint with its [queryFn] left out, and with a number for
    [url]. *)
Definition noQueryFnOptions : obj := delete "queryFn" todosOptions.

Definition numberUrlOptions : obj := <["url" := VNum 42]> todosOptions.

(** A server that is down. *)
Definition down (config : value) : M nat value := throw notFound.

Definition offline : N → value → M nat value :=
  endpoints down unknown.

(** The todo [y]; the todo [x] with an empty [params], with query options
    and an Axios config of the call site, without [input]; page two with
    [staleTime: undefined]. *)
Definition todoY : obj :=
  {[ "input" := VObj {[ "slug" := VStr "y" ]} ]}.

Definition todoXEmpty : obj := <["params" := VObj ∅]> todoX.

Definition todoXTimeout : obj :=
  <["axiosConfig" := VObj {[ "timeout" := VNum 5 ]}]>
    (<["enabled" := VBool false]> todoX).

Definition todoNoInput : obj :=
  {[ "params" := VObj {[ "verbose" := VBool true ]} ]}.

Definition pageTwoUndefined : obj := <["staleTime" := VUndefined]> pageTwo.

(** A context of the query library, and one that has an [input] of its
    own. *)
Definition signalContext : value := VObj {[ "signal" := VNull ]}.

Definition inputContext : value :=
  VObj {[ "input" := VNum 7; "signal" := VNull ]}.

(** ** Objects *)

Lemma lookup_rest (ks : list string) (o : obj) (k : string) :
  rest ks o !! k = if decide (k ∈ ks) then None else o !! k.
Proof.
  unfold rest. induction ks as [|k' ks IH]; cbn [foldr].
  - rewrite decide_False; [done | apply not_elem_of_nil].
  - rewrite lookup_delete, IH.
    destruct (decide (k' = k)) as [->|Hne].
    + rewrite decide_True; [done | apply elem_of_cons; by left].
    + destruct (decide (k ∈ ks)) as [Hin|Hnin].
      * rewrite decide_True; [done | apply elem_of_cons; by right].
      * rewrite decide_False; [done |].
        intros [?|?]%elem_of_cons; congruence.
Qed.

(** A later member of a literal wins over an earlier one, whichever of
    the two is the spread; spreading [undefined] or [null] adds nothing;
    spreading an array adds its indices; a property that holds [undefined]
    is copied like any other. *)
Example objlit_field_then_spread :
  objlit [ Field "a" (VNum 1); Spread (VObj {[ "a" := VNum 2 ]}) ] !! "a"
  = Some (VNum 2).
Proof. reflexivity. Qed.

Example objlit_spread_then_field :
  objlit [ Spread (VObj {[ "a" := VNum 2 ]}); Field "a" (VNum 1) ] !! "a"
  = Some (VNum 1).
Proof. reflexivity. Qed.

Example objlit_spread_nothing :
  objlit [ Spread VUndefined; Spread VNull; Spread (VNum 7) ] = ∅.
Proof. reflexivity. Qed.

Example objlit_spread_array :
  objlit [ Spread (VArr [VStr "a"; VStr "b"]) ]
  = {[ "0" := VStr "a"; "1" := VStr "b" ]}.
Proof. reflexivity. Qed.

Example objlit_spread_undefined_member :
  objlit [ Field "a" (VNum 1); Spread (VObj {[ "a" := VUndefined ]}) ] !! "a"
  = Some VUndefined.
Proof. reflexivity. Qed.

Example rest_leaves_out :
  rest ["a"; "b"] {[ "a" := VNum 1; "c" := VNum 3 ]} = {[ "c" := VNum 3 ]}.
Proof. reflexivity. Qed.

Lemma prop_lookup (k : string) (o : obj) (v : value) :
  o !! k = Some v → prop k o = v.
Proof. unfold prop. by intros ->. Qed.

(** ** The run of the invoker *)

Section run.
Context {World : Type}.
Variable callExtern : N → value → M World value.

Lemma createQueryHook_delegates options instance w u w1 :
  requestUrl callExtern (prop "url" options) (prop "input" instance) w
    = (Returned u, w1) →
  let params := nullish (prop "params" instance) (prop "defaultParams" options) in
  delegates callExtern options instance w
    (<["queryFn" := VQueryFn (prop "queryFn" options) (prop "input" instance)
                      params (prop "axiosConfig" instance) u]>
       (<["queryKey" := queryKey u params]>
          (rest instanceNames instance
             ∪ (rest factoryNames options
                  ∪ {[ "refetchOnWindowFocus" := VBool false ]}))))
    (queryKey u params) w1.
Proof.
  intros Hurl params useQuery.
  unfold createQueryHook, mbind, M_bind. rewrite Hurl.
  unfold objlit; simpl. rewrite insert_empty.
  destruct (useQuery _ w1) as [[query|e] w2]; [|done].
  by rewrite (right_id ∅ (∪)).
Qed.

Lemma createQueryHook_throws options instance w e w1 :
  requestUrl callExtern (prop "url" options) (prop "input" instance) w
    = (Thrown e, w1) →
  ∀ useQuery,
    createQueryHook callExtern useQuery options instance w = (Thrown e, w1).
Proof.
  intros Hurl useQuery.
  unfold createQueryHook, mbind, M_bind. by rewrite Hurl.
Qed.

(** The three layers of query options, below the two members that the
    invoker sets itself. *)
Lemma lookup_layers (instance options : obj) (key fn : value) (k : string) :
  k ∉ ["queryKey"; "queryFn"] →
  (<["queryFn" := fn]>
     (<["queryKey" := key]>
        (rest instanceNames instance
           ∪ (rest factoryNames options
                ∪ {[ "refetchOnWindowFocus" := VBool false ]})))) !! k
  = match (if decide (k ∈ instanceNames) then None else instance !! k) with
    | Some v => Some v
    | None =>
        match (if decide (k ∈ factoryNames) then None else options !! k) with
        | Some v => Some v
        | None =>
            if decide (k = "refetchOnWindowFocus")
            then Some (VBool false) else None
        end
    end.
Proof.
  intros Hk.
  rewrite !lookup_insert_ne by (intros <-; apply Hk; compute_done).
  rewrite !lookup_union, !lookup_rest, lookup_singleton.
  destruct (decide (k ∈ instanceNames)), (decide (k ∈ factoryNames));
    destruct (instance !! k), (options !! k);
    destruct (decide ("refetchOnWindowFocus" = k)) as [<-|];
    simpl; try done;
    rewrite ?decide_True by done; rewrite ?decide_False by done; done.
Qed.

(** What the arrow function of index.ts:104 passes to [queryFn]. *)
Lemma call_VQueryFn queryFn input params axiosConfig url ctx :
  forwards callExtern (VQueryFn queryFn input params axiosConfig url) ctx queryFn
    (ownProps ctx
       ∪ <["axiosConfig" :=
             VObj (<["params" := params]>
                     (<["method" := VStr "GET"]>
                        (<["url" := url]> (ownProps axiosConfig))))]>
           (<["params" := params]> (<["input" := input]> ∅))).
Proof.
  intros w. cbn [call]. unfold objlit; simpl.
  by rewrite !(right_id ∅ (∪)).
Qed.
Lemma delegates_returned options instance w opts key w1 useQuery query w2 :
  delegates callExtern options instance w opts key w1 →
  useQuery (VObj opts) w1 = (Returned query, w2) →
  createQueryHook callExtern useQuery options instance w
    = (Returned (VObj (<["queryKey" := key]> (ownProps query))), w2).
Proof.
  intros Hd Hq. rewrite (Hd useQuery).
  unfold mbind, M_bind. by rewrite Hq.
Qed.

Lemma delegates_thrown options instance w opts key w1 useQuery e w2 :
  delegates callExtern options instance w opts key w1 →
  useQuery (VObj opts) w1 = (Thrown e, w2) →
  createQueryHook callExtern useQuery options instance w = (Thrown e, w2).
Proof.
  intros Hd Hq. rewrite (Hd useQuery).
  unfold mbind, M_bind. by rewrite Hq.
Qed.

(** [delegates] names the one call of the hook: its options, the key and
    the world are determined. *)
Lemma delegates_unique options instance w opts key w1 opts' key' w1' :
  delegates callExtern options instance w opts key w1 →
  delegates callExtern options instance w opts' key' w1' →
  opts = opts' ∧ key = key' ∧ w1 = w1'.
Proof.
  intros Hd Hd'.
  pose proof (Hd (λ o, throw o)) as Hthrow.
  rewrite (Hd' (λ o, throw o)) in Hthrow.
  injection Hthrow as <- <-.
  pose proof (Hd (λ _, mret VNull)) as Hret.
  rewrite (Hd' (λ _, mret VNull)) in Hret.
  apply (f_equal (λ r : outcome value * World,
                    match r.1 with
                    | Returned (VObj o) => o !! "queryKey"
                    | _ => None
                    end)) in Hret.
  unfold mbind, M_bind, mret, M_ret in Hret. cbn [fst ownProps] in Hret.
  rewrite !lookup_insert_eq in Hret. by injection Hret as <-.
Qed.

Lemma requestUrl_pure url input w u w1 :
  pure callExtern url →
  requestUrl callExtern url input w = (Returned u, w1) →
  ∀ w', ∃ w1', requestUrl callExtern url input w' = (Returned u, w1').
Proof.
  intros Hpure Hu w'.
  assert (∀ s, url = VStr s → ∃ w1',
            requestUrl callExtern url input w' = (Returned u, w1')) as Hstr.
  { intros s ->. injection Hu as <- _. by exists w'. }
  assert (requestUrl callExtern url input = call callExtern url input →
          ∃ w1', requestUrl callExtern url input w' = (Returned u, w1'))
    as Hcall.
  { intros Heq. rewrite Heq in Hu |- *.
    specialize (Hpure input w w'). rewrite Hu in Hpure.
    destruct (call callExtern url input w') as [o w1'].
    simpl in Hpure. subst o. by exists w1'. }
  destruct url; eauto.
Qed.
End run.

(** ** Properties of the invoker *)

Section claims.
Context {World : Type}.
Variable callExtern : N → value → M World value.

(** C1: the query key handed to [useQuery] is the array of exactly three
    elements ["GET", requestUrl, params], where [params] are the effective
    parameters.  For two invocations, of the same hook or of two hooks, the
    keys are equal exactly when the resolved URLs and the effective
    parameters are; the verb is the same constant in both.  For arrays of
    this shape in general, equality is equality of verb, URL and
    parameters. *)
Theorem queryKey_method_url_params
    options instance w u w1 options' instance' w' u' w1' :
  requestUrl callExtern (prop "url" options) (prop "input" instance) w
    = (Returned u, w1) →
  requestUrl callExtern (prop "url" options') (prop "input" instance') w'
    = (Returned u', w1') →
  let params := nullish (prop "params" instance) (prop "defaultParams" options) in
  let params' := nullish (prop "params" instance') (prop "defaultParams" options') in
  ∃ opts opts' key key',
    delegates callExtern options instance w opts key w1 ∧
    delegates callExtern options' instance' w' opts' key' w1' ∧
    opts !! "queryKey" = Some key ∧
    opts' !! "queryKey" = Some key' ∧
    key = VArr [VStr "GET"; u; params] ∧
    key' = VArr [VStr "GET"; u'; params'] ∧
    (key = key' ↔ u = u' ∧ params = params') ∧
    (∀ verb verb' : string,
       VArr [VStr verb; u; params] = VArr [VStr verb'; u'; params']
       ↔ verb = verb' ∧ u = u' ∧ params = params').
Proof.
  intros Hu Hu' params params'. subst params params'.
  eexists _, _, _, _.
  split; [by apply createQueryHook_delegates|].
  split; [by apply createQueryHook_delegates|].
  split. { rewrite lookup_insert_ne by done. apply lookup_insert_eq. }
  split. { rewrite lookup_insert_ne by done. apply lookup_insert_eq. }
  split; [done|]. split; [done|].
  unfold queryKey. split.
  - split; [by intros [= ? ?] | by intros [-> ->]].
  - intros verb verb'. split; [by intros [= ? ? ?] | by intros (-> & -> & ->)].
Qed.

(** C2: the effective parameters, which are the third element of the key
    and the [params] that the query function is given, are the call-site
    [params] when the call site provides a value, else the factory's
    [defaultParams], else [undefined]; they are always one of the two
    objects as a whole, never a combination of their fields. *)
Theorem params_call_site_else_default options instance w u w1 :
  requestUrl callExtern (prop "url" options) (prop "input" instance) w
    = (Returned u, w1) →
  ∃ opts params,
    delegates callExtern options instance w opts
      (VArr [VStr "GET"; u; params]) w1 ∧
    opts !! "queryFn"
      = Some (VQueryFn (prop "queryFn" options) (prop "input" instance)
                params (prop "axiosConfig" instance) u) ∧
    (∀ p, instance !! "params" = Some p → p ≠ VUndefined → p ≠ VNull →
          params = p) ∧
    (instance !! "params" = None ∨ instance !! "params" = Some VUndefined →
     (∀ d, options !! "defaultParams" = Some d → params = d) ∧
     (options !! "defaultParams" = None → params = VUndefined)) ∧
    (params = prop "params" instance ∨ params = prop "defaultParams" options).
Proof.
  intros Hu.
  eexists _, _.
  split; [by apply createQueryHook_delegates|].
  split; [apply lookup_insert_eq|].
  unfold prop. split; [|split].
  - intros p -> ? ?. by destruct p.
  - intros [-> | ->]; simpl; (split; [by intros d -> | by intros ->]).
  - destruct (instance !! "params") as [[]|]; simpl; auto.
Qed.

(** C3: below [queryKey] and [queryFn], every member of the options handed
    to [useQuery] is the call-site option of that name if there is one,
    else the factory option of that name if there is one, else the
    built-in [refetchOnWindowFocus: false]; the value is taken whole.  A
    factory [staleTime] of 300000 with a call-site [staleTime] of 0 gives
    0. *)
Theorem options_three_tiers options instance w u w1 :
  requestUrl callExtern (prop "url" options) (prop "input" instance) w
    = (Returned u, w1) →
  ∃ opts key,
    delegates callExtern options instance w opts key w1 ∧
    (∀ k, k ∉ ["queryKey"; "queryFn"] →
       let callSite := if decide (k ∈ instanceNames) then None else instance !! k in
       let factory := if decide (k ∈ factoryNames) then None else options !! k in
       let builtIn :=
         if decide (k = "refetchOnWindowFocus") then Some (VBool false) else None in
       opts !! k = match callSite with
                   | Some v => Some v
                   | None => match factory with
                             | Some v => Some v
                             | None => builtIn
                             end
                   end) ∧
    (instance !! "refetchOnWindowFocus" = None →
     options !! "refetchOnWindowFocus" = None →
     opts !! "refetchOnWindowFocus" = Some (VBool false)) ∧
    (options !! "staleTime" = Some (VNum 300000) →
     instance !! "staleTime" = Some (VNum 0) →
     opts !! "staleTime" = Some (VNum 0)).
Proof.
  intros Hu.
  eexists _, _.
  split; [by apply createQueryHook_delegates|].
  split; [|split].
  - intros k Hk callSite factory builtIn. subst callSite factory builtIn.
    by rewrite lookup_layers.
  - intros Hi Ho. rewrite lookup_layers by compute_done.
    rewrite !decide_False by compute_done. rewrite Hi, Ho.
    by rewrite decide_True.
  - intros Ho Hi. rewrite lookup_layers by compute_done.
    rewrite !decide_False by compute_done. by rewrite Hi.
Qed.

(** C4: a [url] that is a string is the resolved URL whatever the input,
    without any call; a [url] that is a function is called with the input
    and what it returns is the resolved URL, and when it throws the invoker
    throws the same.  The resolved URL is the second element of the key and
    the [url] that the query function is given. *)
Theorem requestUrl_constant_or_called options instance w :
  (∀ s, options !! "url" = Some (VStr s) →
     requestUrl callExtern (prop "url" options) (prop "input" instance) w
       = (Returned (VStr s), w) ∧
     ∃ opts params,
       delegates callExtern options instance w opts
         (VArr [VStr "GET"; VStr s; params]) w ∧
       opts !! "queryFn"
         = Some (VQueryFn (prop "queryFn" options) (prop "input" instance)
                   params (prop "axiosConfig" instance) (VStr s))) ∧
  (∀ f, options !! "url" = Some (VFun f) →
     requestUrl callExtern (prop "url" options) (prop "input" instance) w
       = callExtern f (prop "input" instance) w ∧
     (∀ u w1, callExtern f (prop "input" instance) w = (Returned u, w1) →
        ∃ opts params,
          delegates callExtern options instance w opts
            (VArr [VStr "GET"; u; params]) w1 ∧
          opts !! "queryFn"
            = Some (VQueryFn (prop "queryFn" options) (prop "input" instance)
                      params (prop "axiosConfig" instance) u)) ∧
     (∀ e w1, callExtern f (prop "input" instance) w = (Thrown e, w1) →
        ∀ useQuery,
          createQueryHook callExtern useQuery options instance w
            = (Thrown e, w1))).
Proof.
  split.
  - intros s Hs.
    assert (requestUrl callExtern (prop "url" options) (prop "input" instance) w
            = (Returned (VStr s), w)) as Hu
      by (by rewrite (prop_lookup _ _ _ Hs)).
    split; [done|]. eexists _, _.
    split; [by apply createQueryHook_delegates|]. apply lookup_insert_eq.
  - intros f Hf.
    assert (requestUrl callExtern (prop "url" options) (prop "input" instance) w
            = callExtern f (prop "input" instance) w) as Hu
      by (by rewrite (prop_lookup _ _ _ Hf)).
    split; [done|]. split.
    + intros u w1 Hcall. rewrite Hcall in Hu. eexists _, _.
      split; [by apply createQueryHook_delegates|]. apply lookup_insert_eq.
    + intros e w1 Hcall. rewrite Hcall in Hu.
      by apply createQueryHook_throws.
Qed.

(** C5: the function handed to [useQuery] as [queryFn] calls the factory's
    [queryFn] once and settles as it does.  When the context that the query
    library passes has no member named [input], [params] or [axiosConfig]
    (its type, [QueryFunctionContext], has none), the argument of that call
    holds the call-site input, the effective parameters and an Axios config
    whose [url], [method] and [params] are the resolved URL, "GET" and the
    effective parameters, whatever the call-site [axiosConfig] says of
    these three; every other member of the call-site [axiosConfig] is in it
    unchanged, and so is every member of the context. *)
Theorem queryFn_receives options instance w u w1 :
  requestUrl callExtern (prop "url" options) (prop "input" instance) w
    = (Returned u, w1) →
  let input := prop "input" instance in
  let params := nullish (prop "params" instance) (prop "defaultParams" options) in
  let axiosConfig := prop "axiosConfig" instance in
  ∃ opts key wrapper,
    delegates callExtern options instance w opts key w1 ∧
    opts !! "queryFn" = Some wrapper ∧
    ∀ ctx, (∀ k, k ∈ requestNames → ownProps ctx !! k = None) →
      ∃ arg config,
        (∀ ext : N → value → M World value,
           forwards ext wrapper ctx (prop "queryFn" options) arg) ∧
        arg !! "input" = Some input ∧
        arg !! "params" = Some params ∧
        arg !! "axiosConfig" = Some (VObj config) ∧
        config !! "url" = Some u ∧
        config !! "method" = Some (VStr "GET") ∧
        config !! "params" = Some params ∧
        (∀ k, k ∉ transportNames → config !! k = ownProps axiosConfig !! k) ∧
        (∀ k, k ∉ requestNames → arg !! k = ownProps ctx !! k).
Proof.
  intros Hu input params axiosConfig. subst input params axiosConfig.
  eexists _, _, _.
  split; [by apply createQueryHook_delegates|].
  split; [apply lookup_insert_eq|].
  intros ctx Hctx. eexists _, _.
  split; [intros ext; apply call_VQueryFn|].
  split; [|split; [|split; [|split; [|split; [|split; [|split]]]]]].
  - rewrite lookup_union_r by (apply Hctx; compute_done).
    rewrite !lookup_insert_ne by done. apply lookup_insert_eq.
  - rewrite lookup_union_r by (apply Hctx; compute_done).
    rewrite lookup_insert_ne by done. apply lookup_insert_eq.
  - rewrite lookup_union_r by (apply Hctx; compute_done).
    apply lookup_insert_eq.
  - rewrite !lookup_insert_ne by done. apply lookup_insert_eq.
  - rewrite lookup_insert_ne by done. apply lookup_insert_eq.
  - apply lookup_insert_eq.
  - intros k Hk.
    by rewrite !lookup_insert_ne by (intros <-; apply Hk; compute_done).
  - intros k Hk. apply lookup_union_l.
    by rewrite !lookup_insert_ne by (intros <-; apply Hk; compute_done).
Qed.

(** C6: the function handed to [useQuery] settles exactly as the factory's
    [queryFn] does on the one call it makes: when that call fails with [e],
    it fails with the same [e] in the same world, so nothing is caught,
    retried or rewritten; with a hook that reports such a failure as
    [error], leaving [data] undefined, the invoker returns that [error]
    and [data] undefined.  In general what the invoker returns has the
    [error] and the [data] of what [useQuery] returns, and when [useQuery]
    itself throws, the invoker throws the same. *)
Theorem failure_passes_through options instance w u w1 :
  requestUrl callExtern (prop "url" options) (prop "input" instance) w
    = (Returned u, w1) →
  ∃ opts key wrapper,
    delegates callExtern options instance w opts key w1 ∧
    opts !! "queryFn" = Some wrapper ∧
    (∀ ctx, ∃ arg,
       (∀ ext : N → value → M World value,
          forwards ext wrapper ctx (prop "queryFn" options) arg) ∧
       (∀ (ext : N → value → M World value) w2 e w3,
          call ext (prop "queryFn" options) (VObj arg) w2 = (Thrown e, w3) →
          call ext wrapper ctx w2 = (Thrown e, w3)) ∧
       (∀ useQuery e w2,
          reports callExtern useQuery opts wrapper ctx w1 →
          call callExtern (prop "queryFn" options) (VObj arg) w1
            = (Thrown e, w2) →
          ∃ result,
            createQueryHook callExtern useQuery options instance w
              = (Returned (VObj result), w2) ∧
            result !! "error" = Some e ∧
            prop "data" result = VUndefined)) ∧
    (∀ useQuery query w2,
       useQuery (VObj opts) w1 = (Returned query, w2) →
       ∃ result,
         createQueryHook callExtern useQuery options instance w
           = (Returned (VObj result), w2) ∧
         result !! "error" = ownProps query !! "error" ∧
         result !! "data" = ownProps query !! "data") ∧
    (∀ useQuery e w2,
       useQuery (VObj opts) w1 = (Thrown e, w2) →
       createQueryHook callExtern useQuery options instance w
         = (Thrown e, w2)).
Proof.
  intros Hu.
  pose proof (createQueryHook_delegates callExtern _ _ _ _ _ Hu) as Hd.
  simpl in Hd.
  eexists _, _, _.
  split; [exact Hd|].
  split; [apply lookup_insert_eq|].
  split; [|split].
  - intros ctx. eexists.
    split; [intros ext; apply call_VQueryFn|].
    split; [intros ext w2 e w3 Hfail; by rewrite call_VQueryFn|].
    intros useQuery e w2 Hreports Hfail.
    rewrite <- call_VQueryFn in Hfail.
    destruct (Hreports e w2 Hfail) as (query & Hq & Herror & Hdata).
    eexists. split; [by eapply delegates_returned|].
    unfold prop in *. by rewrite !lookup_insert_ne.
  - intros useQuery query w2 Hq. eexists.
    split; [by eapply delegates_returned|].
    by rewrite !lookup_insert_ne.
  - intros useQuery e w2 Hq. by eapply delegates_thrown.
Qed.

(** C7: when [useQuery] returns, the invoker returns an object with every
    member of that result unchanged and with the derived key
    ["GET", requestUrl, params] as [queryKey], which is the very key that
    [useQuery] was given as [queryKey] in this call.  (A member of the
    result that is itself named [queryKey] is the one replaced; the result
    type of [useQuery] has none.) *)
Theorem result_is_query_with_key options instance w u w1 :
  requestUrl callExtern (prop "url" options) (prop "input" instance) w
    = (Returned u, w1) →
  ∃ opts key,
    delegates callExtern options instance w opts key w1 ∧
    key = VArr [VStr "GET"; u;
                nullish (prop "params" instance) (prop "defaultParams" options)] ∧
    opts !! "queryKey" = Some key ∧
    ∀ useQuery query w2,
      useQuery (VObj opts) w1 = (Returned query, w2) →
      ∃ result,
        createQueryHook callExtern useQuery options instance w
          = (Returned (VObj result), w2) ∧
        result !! "queryKey" = Some key ∧
        (∀ k, k ≠ "queryKey" → result !! k = ownProps query !! k) ∧
        (ownProps query !! "queryKey" = None →
         ∀ k v, ownProps query !! k = Some v → result !! k = Some v).
Proof.
  intros Hu.
  pose proof (createQueryHook_delegates callExtern _ _ _ _ _ Hu) as Hd.
  simpl in Hd.
  eexists _, _.
  split; [exact Hd|].
  split; [done|].
  split. { rewrite lookup_insert_ne by done. apply lookup_insert_eq. }
  intros useQuery query w2 Hq. eexists.
  split; [by eapply delegates_returned|].
  split; [apply lookup_insert_eq|].
  split.
  - intros k Hk. by rewrite lookup_insert_ne.
  - intros Hnone k v Hk. rewrite lookup_insert_ne; [done|].
    intros <-. congruence.
Qed.

(** C8: with a [url] that is a string or a function whose outcome does not
    depend on the world, an invocation that reaches [useQuery] in one world
    reaches it in every world, with the same options and the same key: the
    key is a function of the two configurations alone. *)
Theorem queryKey_deterministic options instance w u w1 :
  pure callExtern (prop "url" options) →
  requestUrl callExtern (prop "url" options) (prop "input" instance) w
    = (Returned u, w1) →
  ∃ opts key,
    delegates callExtern options instance w opts key w1 ∧
    opts !! "queryKey" = Some key ∧
    ∀ w', ∃ w1', delegates callExtern options instance w' opts key w1'.
Proof.
  intros Hpure Hu.
  eexists _, _.
  split; [by apply createQueryHook_delegates|].
  split. { rewrite lookup_insert_ne by done. apply lookup_insert_eq. }
  intros w'.
  destruct (requestUrl_pure callExtern _ _ _ _ _ Hpure Hu w') as [w1' Hu'].
  exists w1'. by apply createQueryHook_delegates.
Qed.

(** C9: whatever the factory options and the call-site options hold, a
    member named [queryKey] included, the [queryKey] that [useQuery] is
    given is the derived ["GET", requestUrl, params], and the [queryKey] of
    what the invoker returns is that same key. *)
Theorem queryKey_not_overridden options instance w u w1 :
  requestUrl callExtern (prop "url" options) (prop "input" instance) w
    = (Returned u, w1) →
  ∃ opts key,
    delegates callExtern options instance w opts key w1 ∧
    key = VArr [VStr "GET"; u;
                nullish (prop "params" instance) (prop "defaultParams" options)] ∧
    opts !! "queryKey" = Some key ∧
    ∀ useQuery query w2,
      useQuery (VObj opts) w1 = (Returned query, w2) →
      ∃ result,
        createQueryHook callExtern useQuery options instance w
          = (Returned (VObj result), w2) ∧
        result !! "queryKey" = Some key.
Proof.
  intros Hu.
  pose proof (createQueryHook_delegates callExtern _ _ _ _ _ Hu) as Hd.
  simpl in Hd.
  eexists _, _.
  split; [exact Hd|].
  split; [done|].
  split. { rewrite lookup_insert_ne by done. apply lookup_insert_eq. }
  intros useQuery query w2 Hq. eexists.
  split; [by eapply delegates_returned|].
  apply lookup_insert_eq.
Qed.

(** C10: call-site [params] of [null] give the factory's [defaultParams]
    as effective parameters, in the key and for the query function, exactly
    as when [params] are left out. *)
Theorem null_params_fall_back options instance w u w1 :
  instance !! "params" = Some VNull →
  requestUrl callExtern (prop "url" options) (prop "input" instance) w
    = (Returned u, w1) →
  ∃ opts opts' key,
    delegates callExtern options instance w opts key w1 ∧
    delegates callExtern options (delete "params" instance) w opts' key w1 ∧
    key = VArr [VStr "GET"; u; prop "defaultParams" options] ∧
    opts !! "queryFn"
      = Some (VQueryFn (prop "queryFn" options) (prop "input" instance)
                (prop "defaultParams" options) (prop "axiosConfig" instance) u).
Proof.
  intros Hnull Hu.
  assert (prop "input" (delete "params" instance) = prop "input" instance)
    as Hinput by (unfold prop; by rewrite lookup_delete_ne).
  assert (prop "params" (delete "params" instance) = VUndefined)
    as Hparams by (unfold prop; by rewrite lookup_delete_eq).
  pose proof (createQueryHook_delegates callExtern _ _ _ _ _ Hu) as Hd.
  rewrite <- Hinput in Hu.
  pose proof (createQueryHook_delegates callExtern _ _ _ _ _ Hu) as Hd'.
  simpl in Hd, Hd'.
  rewrite Hparams in Hd'. rewrite (prop_lookup _ _ _ Hnull) in Hd.
  simpl in Hd, Hd'.
  eexists _, _, _.
  split; [exact Hd|]. split; [exact Hd'|].
  split; [done|]. apply lookup_insert_eq.
Qed.
End claims.

(** ** The properties at the endpoints of src/api/todos *)

Lemma queryKey_method_url_params_witness :
  requestUrl todos (prop "url" todosOptions) (prop "input" pageTwo) 0%nat
    = (Returned (VStr "/todos"), 0%nat) ∧
  requestUrl todos (prop "url" todoOptions) (prop "input" todoX) 7%nat
    = (Returned (VStr "/todos/x"), 7%nat) ∧
  ∃ opts opts' key key',
    delegates todos todosOptions pageTwo 0%nat opts key 0%nat ∧
    delegates todos todoOptions todoX 7%nat opts' key' 7%nat ∧
    opts !! "queryKey" = Some key ∧
    opts' !! "queryKey" = Some key' ∧
    key = VArr [VStr "GET"; VStr "/todos"; VObj {[ "page" := VNum 2 ]}] ∧
    key' = VArr [VStr "GET"; VStr "/todos/x"; VObj {[ "verbose" := VBool true ]}] ∧
    key ≠ key'.
Proof.
  split; [reflexivity|]. split; [reflexivity|].
  destruct (queryKey_method_url_params todos
              todosOptions pageTwo 0%nat (VStr "/todos") 0%nat
              todoOptions todoX 7%nat (VStr "/todos/x") 7%nat
              eq_refl eq_refl)
    as (opts & opts' & key & key' & Hd & Hd' & Hk & Hk' & Hkey & Hkey' & Hiff & _).
  exists opts, opts', key, key'.
  repeat (split; [assumption|]).
  intros Heq. apply Hiff in Heq as [Heq _]. discriminate Heq.
Defined.

Lemma params_call_site_else_default_witness :
  requestUrl todos (prop "url" todoOptions) (prop "input" todoX) 0%nat
    = (Returned (VStr "/todos/x"), 0%nat) ∧
  (∃ opts params,
     delegates todos todoOptions todoX 0%nat opts
       (VArr [VStr "GET"; VStr "/todos/x"; params]) 0%nat ∧
     params = VObj {[ "verbose" := VBool true ]}) ∧
  (∃ opts params,
     delegates todos todoOptions todoXQuiet 0%nat opts
       (VArr [VStr "GET"; VStr "/todos/x"; params]) 0%nat ∧
     params = VObj {[ "verbose" := VBool false ]}).
Proof.
  split; [reflexivity|]. split.
  - destruct (params_call_site_else_default todos
                todoOptions todoX 0%nat (VStr "/todos/x") 0%nat eq_refl)
      as (opts & params & Hd & _ & _ & Hdefault & _).
    exists opts, params. split; [assumption|].
    destruct (Hdefault (or_introl eq_refl)) as [Hsome _].
    apply Hsome. reflexivity.
  - destruct (params_call_site_else_default todos
                todoOptions todoXQuiet 0%nat (VStr "/todos/x") 0%nat eq_refl)
      as (opts & params & Hd & _ & Hcall & _).
    exists opts, params. split; [assumption|].
    apply Hcall; [reflexivity | discriminate | discriminate].
Defined.

Lemma options_three_tiers_witness :
  requestUrl todos (prop "url" staleOptions) (prop "input" freshPageTwo) 0%nat
    = (Returned (VStr "/todos"), 0%nat) ∧
  ∃ opts key,
    delegates todos staleOptions freshPageTwo 0%nat opts key 0%nat ∧
    opts !! "staleTime" = Some (VNum 0) ∧
    opts !! "refetchOnWindowFocus" = Some (VBool false) ∧
    opts !! "enabled" = None.
Proof.
  split; [reflexivity|].
  destruct (options_three_tiers todos
              staleOptions freshPageTwo 0%nat (VStr "/todos") 0%nat eq_refl)
    as (opts & key & Hd & Hlayers & Hfocus & Hstale).
  exists opts, key. split; [assumption|].
  split; [apply Hstale; reflexivity|].
  split; [apply Hfocus; reflexivity|].
  rewrite (Hlayers "enabled") by compute_done. reflexivity.
Defined.

Lemma requestUrl_constant_or_called_witness :
  (∃ opts params,
     delegates todos constantOptions pageTwo 3%nat opts
       (VArr [VStr "GET"; VStr "/todos"; params]) 3%nat) ∧
  (∃ opts params,
     delegates todos todoOptions todoX 0%nat opts
       (VArr [VStr "GET"; VStr "/todos/x"; params]) 0%nat).
Proof.
  split.
  - destruct (requestUrl_constant_or_called todos constantOptions pageTwo 3%nat)
      as [Hconstant _].
    destruct (Hconstant "/todos" eq_refl) as [_ (opts & params & Hd & _)].
    by exists opts, params.
  - destruct (requestUrl_constant_or_called todos todoOptions todoX 0%nat)
      as [_ Hcalled].
    destruct (Hcalled 2%N eq_refl) as (_ & Hreturned & _).
    destruct (Hreturned (VStr "/todos/x") 0%nat eq_refl)
      as (opts & params & Hd & _).
    by exists opts, params.
Defined.

Lemma queryFn_receives_witness :
  requestUrl todos (prop "url" todoOptions) (prop "input" todoXElsewhere) 0%nat
    = (Returned (VStr "/todos/x"), 0%nat) ∧
  ∃ opts key wrapper arg config,
    delegates todos todoOptions todoXElsewhere 0%nat opts key 0%nat ∧
    opts !! "queryFn" = Some wrapper ∧
    forwards todos wrapper (VObj {[ "signal" := VNull ]}) (VFun 3) arg ∧
    arg !! "input" = Some (VObj {[ "slug" := VStr "x" ]}) ∧
    arg !! "params" = Some (VObj {[ "verbose" := VBool true ]}) ∧
    arg !! "axiosConfig" = Some (VObj config) ∧
    arg !! "signal" = Some VNull ∧
    config !! "url" = Some (VStr "/todos/x") ∧
    config !! "method" = Some (VStr "GET") ∧
    config !! "params" = Some (VObj {[ "verbose" := VBool true ]}) ∧
    config !! "timeout" = Some (VNum 1000).
Proof.
  split; [reflexivity|].
  destruct (queryFn_receives todos
              todoOptions todoXElsewhere 0%nat (VStr "/todos/x") 0%nat eq_refl)
    as (opts & key & wrapper & Hd & Hq & Hctx).
  destruct (Hctx (VObj {[ "signal" := VNull ]}))
    as (arg & config & Hf & Hinput & Hparams & Hconfig
          & Hurl & Hmethod & Hcparams & Hother & Hrest).
  { intros k Hk.
    repeat (apply elem_of_cons in Hk as [->|Hk]; [reflexivity|]).
    by apply elem_of_nil in Hk. }
  exists opts, key, wrapper, arg, config.
  split; [assumption|]. split; [assumption|].
  split; [apply Hf|].
  split; [assumption|]. split; [assumption|]. split; [assumption|].
  split; [rewrite Hrest by compute_done; reflexivity|].
  split; [assumption|]. split; [assumption|]. split; [assumption|].
  rewrite Hother by compute_done. reflexivity.
Defined.

Lemma failure_passes_through_witness :
  requestUrl todos (prop "url" todoOptions) (prop "input" todoX) 0%nat
    = (Returned (VStr "/todos/x"), 0%nat) ∧
  ∃ opts key wrapper,
    delegates todos todoOptions todoX 0%nat opts key 0%nat ∧
    opts !! "queryFn" = Some wrapper ∧
    ∀ ctx, ∃ arg,
      forwards todos wrapper ctx (VFun 3) arg ∧
      ∀ w2 e w3,
        call todos (VFun 3) (VObj arg) w2 = (Thrown e, w3) →
        call todos wrapper ctx w2 = (Thrown e, w3).
Proof.
  split; [reflexivity|].
  destruct (failure_passes_through todos
              todoOptions todoX 0%nat (VStr "/todos/x") 0%nat eq_refl)
    as (opts & key & wrapper & Hd & Hq & Hctx & _).
  exists opts, key, wrapper.
  split; [assumption|]. split; [assumption|].
  intros ctx. destruct (Hctx ctx) as (arg & Hf & Hfail & _).
  exists arg. split; [apply Hf | apply Hfail].
Defined.

Lemma result_is_query_with_key_witness :
  requestUrl todos (prop "url" todosOptions) (prop "input" pageTwo) 0%nat
    = (Returned (VStr "/todos"), 0%nat) ∧
  ∃ opts key result,
    delegates todos todosOptions pageTwo 0%nat opts key 0%nat ∧
    key = VArr [VStr "GET"; VStr "/todos"; VObj {[ "page" := VNum 2 ]}] ∧
    opts !! "queryKey" = Some key ∧
    createQueryHook todos pending todosOptions pageTwo 0%nat
      = (Returned (VObj result), 0%nat) ∧
    result !! "queryKey" = Some key ∧
    result !! "status" = Some (VStr "pending") ∧
    result !! "data" = Some VUndefined ∧
    result !! "error" = Some VNull ∧
    result !! "isLoading" = Some (VBool true).
Proof.
  split; [reflexivity|].
  destruct (result_is_query_with_key todos
              todosOptions pageTwo 0%nat (VStr "/todos") 0%nat eq_refl)
    as (opts & key & Hd & Hkey & Hk & Hresult).
  destruct (Hresult pending _ 0%nat eq_refl)
    as (result & Hrun & Hrk & Hfields & _).
  exists opts, key, result.
  split; [assumption|]. split; [assumption|]. split; [assumption|].
  split; [assumption|]. split; [assumption|].
  rewrite !Hfields by discriminate. repeat split; reflexivity.
Defined.

Lemma queryKey_deterministic_witness :
  pure todos (prop "url" todosOptions) ∧
  requestUrl todos (prop "url" todosOptions) (prop "input" pageTwo) 0%nat
    = (Returned (VStr "/todos"), 0%nat) ∧
  ∃ opts key,
    delegates todos todosOptions pageTwo 0%nat opts key 0%nat ∧
    opts !! "queryKey" = Some key ∧
    ∃ w1', delegates todos todosOptions pageTwo 41%nat opts key w1'.
Proof.
  assert (pure todos (prop "url" todosOptions)) as Hpure
    by (intros arg w w'; reflexivity).
  split; [exact Hpure|]. split; [reflexivity|].
  destruct (queryKey_deterministic todos
              todosOptions pageTwo 0%nat (VStr "/todos") 0%nat Hpure eq_refl)
    as (opts & key & Hd & Hk & Hworlds).
  exists opts, key.
  split; [assumption|]. split; [assumption|]. apply Hworlds.
Defined.

Lemma queryKey_not_overridden_witness :
  requestUrl todos (prop "url" keyedOptions) (prop "input" keyedPageTwo) 0%nat
    = (Returned (VStr "/todos"), 0%nat) ∧
  keyedOptions !! "queryKey" = Some (VStr "factory") ∧
  keyedPageTwo !! "queryKey" = Some (VStr "call site") ∧
  ∃ opts key result,
    delegates todos keyedOptions keyedPageTwo 0%nat opts key 0%nat ∧
    key = VArr [VStr "GET"; VStr "/todos"; VObj {[ "page" := VNum 2 ]}] ∧
    opts !! "queryKey" = Some key ∧
    createQueryHook todos pending keyedOptions keyedPageTwo 0%nat
      = (Returned (VObj result), 0%nat) ∧
    result !! "queryKey" = Some key.
Proof.
  split; [reflexivity|]. split; [reflexivity|]. split; [reflexivity|].
  destruct (queryKey_not_overridden todos
              keyedOptions keyedPageTwo 0%nat (VStr "/todos") 0%nat eq_refl)
    as (opts & key & Hd & Hkey & Hk & Hresult).
  destruct (Hresult pending _ 0%nat eq_refl) as (result & Hrun & Hrk).
  exists opts, key, result.
  split; [assumption|]. split; [assumption|]. split; [assumption|].
  split; assumption.
Defined.

Lemma null_params_fall_back_witness :
  todoXNull !! "params" = Some VNull ∧
  requestUrl todos (prop "url" todoOptions) (prop "input" todoXNull) 0%nat
    = (Returned (VStr "/todos/x"), 0%nat) ∧
  ∃ opts opts' key,
    delegates todos todoOptions todoXNull 0%nat opts key 0%nat ∧
    delegates todos todoOptions (delete "params" todoXNull) 0%nat opts' key 0%nat ∧
    key = VArr [VStr "GET"; VStr "/todos/x"; VObj {[ "verbose" := VBool true ]}].
Proof.
  split; [reflexivity|]. split; [reflexivity|].
  destruct (null_params_fall_back todos
              todoOptions todoXNull 0%nat (VStr "/todos/x") 0%nat
              eq_refl eq_refl)
    as (opts & opts' & key & Hd & Hd' & Hkey & _).
  exists opts, opts', key.
  split; [assumption|]. split; assumption.
Defined.

(** ** The hooks at work *)

(** Page two of the list: the key is ["GET", "/todos", {page: 2}], one
    request is served, and the data is the list. *)
Example useTodosQuery_pageTwo :
  ∃ result,
    useTodosQuery server (eager todos) unknown pageTwo 0%nat
      = (Returned (VObj result), 1%nat) ∧
    result !! "queryKey"
      = Some (VArr [VStr "GET"; VStr "/todos"; VObj {[ "page" := VNum 2 ]}]) ∧
    result !! "data" = Some (VObj {[ "todos" := VArr [] ]}) ∧
    result !! "error" = Some VNull.
Proof.
  eexists. split; [vm_compute; reflexivity|].
  repeat split; vm_compute; reflexivity.
Qed.

(** The todo [x], which the server does not know: the key is
    ["GET", "/todos/x", {verbose: true}], the error is the 404 of the server
    as it was thrown, and there is no data. *)
Example useTodoQuery_not_found :
  ∃ result,
    useTodoQuery server (eager todos) unknown todoX 0%nat
      = (Returned (VObj result), 1%nat) ∧
    result !! "queryKey"
      = Some (VArr [VStr "GET"; VStr "/todos/x";
                    VObj {[ "verbose" := VBool true ]}]) ∧
    result !! "error" = Some notFound ∧
    result !! "data" = Some VUndefined.
Proof.
  eexists. split; [vm_compute; reflexivity|].
  repeat split; vm_compute; reflexivity.
Qed.

(** A [url] that is not a function and not a string: the invoker throws
    before [useQuery] is called. *)
Example createQueryHook_without_url :
  createQueryHook todos (eager todos) ∅ pageTwo 0%nat
    = (Thrown typeError, 0%nat).
Proof. reflexivity. Qed.

(** ** Edges of the invoker *)

Section edges.
Context {World : Type}.
Variable callExtern : N → value → M World value.

(** X1: with a [url] that is neither a string nor a function (left out,
    [undefined], [null], a number, an object, ...), every invocation throws
    a TypeError; the world is as before and [useQuery] is not called. *)
Theorem url_not_callable_throws options instance w useQuery :
  isString (prop "url" options) = false →
  callable (prop "url" options) = false →
  createQueryHook callExtern useQuery options instance w
    = (Thrown typeError, w).
Proof.
  intros Hstring Hcall.
  unfold createQueryHook, mbind, M_bind, requestUrl.
  by destruct (prop "url" options).
Qed.

(** X2: a [queryFn] that cannot be called (left out, for one) does not
    stop the invocation: [useQuery] is called as usual.  The function it is
    given then fails with a TypeError on every context, in every world,
    leaving the world as it is. *)
Theorem queryFn_not_callable_rejects options instance w u w1 :
  requestUrl callExtern (prop "url" options) (prop "input" instance) w
    = (Returned u, w1) →
  callable (prop "queryFn" options) = false →
  ∃ opts key wrapper,
    delegates callExtern options instance w opts key w1 ∧
    opts !! "queryFn" = Some wrapper ∧
    ∀ (ext : N → value → M World value) ctx w2,
      call ext wrapper ctx w2 = (Thrown typeError, w2).
Proof.
  intros Hu Hcall.
  eexists _, _, _.
  split; [by apply createQueryHook_delegates|].
  split; [apply lookup_insert_eq|].
  intros ext ctx w2. cbn [call].
  by destruct (prop "queryFn" options).
Qed.

(** X3: every member of the context that the query library passes reaches
    [queryFn] unchanged, and one named [input], [params] or [axiosConfig]
    takes the place of what the invoker set under that name; apart from
    these three names the argument of [queryFn] has no member that the
    context does not have. *)
Theorem context_members_win options instance w u w1 :
  requestUrl callExtern (prop "url" options) (prop "input" instance) w
    = (Returned u, w1) →
  ∃ opts key wrapper,
    delegates callExtern options instance w opts key w1 ∧
    opts !! "queryFn" = Some wrapper ∧
    ∀ ctx, ∃ arg,
      (∀ ext : N → value → M World value,
         forwards ext wrapper ctx (prop "queryFn" options) arg) ∧
      (∀ k v, ownProps ctx !! k = Some v → arg !! k = Some v) ∧
      (∀ k, k ∉ requestNames → ownProps ctx !! k = None → arg !! k = None).
Proof.
  intros Hu.
  eexists _, _, _.
  split; [by apply createQueryHook_delegates|].
  split; [apply lookup_insert_eq|].
  intros ctx. eexists.
  split; [intros ext; apply call_VQueryFn|].
  split.
  - intros k v Hk. by apply lookup_union_Some_l.
  - intros k Hk Hnone. apply lookup_union_None_2; [done|].
    by rewrite !lookup_insert_ne by (intros <-; apply Hk; compute_done).
Qed.

(** X4: the key depends on the call site through [input] and [params]
    only: two call sites with the same [input] and [params] get the same
    key, whatever their [axiosConfig] and their query options are.  When
    their [axiosConfig] is the same too, [useQuery] is given the same
    function. *)
Theorem key_of_input_and_params options instance instance' w u w1 :
  prop "input" instance' = prop "input" instance →
  prop "params" instance' = prop "params" instance →
  requestUrl callExtern (prop "url" options) (prop "input" instance) w
    = (Returned u, w1) →
  ∃ opts opts' key,
    delegates callExtern options instance w opts key w1 ∧
    delegates callExtern options instance' w opts' key w1 ∧
    opts !! "queryKey" = Some key ∧
    opts' !! "queryKey" = Some key ∧
    (prop "axiosConfig" instance' = prop "axiosConfig" instance →
     opts' !! "queryFn" = opts !! "queryFn").
Proof.
  intros Hinput Hparams Hu.
  pose proof (createQueryHook_delegates callExtern _ _ _ _ _ Hu) as Hd.
  rewrite <- Hinput in Hu.
  pose proof (createQueryHook_delegates callExtern _ _ _ _ _ Hu) as Hd'.
  cbv zeta in Hd, Hd'. rewrite Hparams in Hd'.
  eexists _, _, _.
  split; [exact Hd|]. split; [exact Hd'|].
  split. { rewrite lookup_insert_ne by done. apply lookup_insert_eq. }
  split. { rewrite lookup_insert_ne by done. apply lookup_insert_eq. }
  intros Haxios. rewrite !lookup_insert_eq. by rewrite Hinput, Haxios.
Qed.

(** X5: a query option that the call site passes as [undefined] or [null]
    is handed to [useQuery] as such: neither the factory's value of that
    option nor the built-in [refetchOnWindowFocus: false] takes its place.
    (The parameters fall back on [undefined] and [null]; the options do
    not.) *)
Theorem nullish_option_overrides options instance w u w1 k v :
  k ∉ instanceNames →
  k ∉ ["queryKey"; "queryFn"] →
  instance !! k = Some v →
  v = VUndefined ∨ v = VNull →
  requestUrl callExtern (prop "url" options) (prop "input" instance) w
    = (Returned u, w1) →
  ∃ opts key,
    delegates callExtern options instance w opts key w1 ∧
    opts !! k = Some v.
Proof.
  intros Hk Hk' Hv _ Hu.
  eexists _, _.
  split; [by apply createQueryHook_delegates|].
  rewrite lookup_layers by done.
  by rewrite decide_False, Hv.
Qed.
End edges.

(** X6: the invoker itself runs no function from outside but [url]: with
    another behaviour of every other outside function, [queryFn] included,
    an invocation with the same hook is the same. *)
Theorem invoker_runs_only_url {World : Type}
    (callExtern callExtern' : N → value → M World value)
    useQuery options instance w :
  (∀ a b c d e, prop "url" options ≠ VQueryFn a b c d e) →
  (∀ f, prop "url" options = VFun f →
        callExtern f (prop "input" instance) w
        = callExtern' f (prop "input" instance) w) →
  createQueryHook callExtern useQuery options instance w
  = createQueryHook callExtern' useQuery options instance w.
Proof.
  intros Hclosure Hsame.
  unfold createQueryHook, mbind, M_bind, requestUrl.
  destruct (prop "url" options) eqn:Hurl; try reflexivity.
  - cbn [call]. by rewrite (Hsame _ eq_refl).
  - by destruct (Hclosure _ _ _ _ _ eq_refl).
Qed.

(** ** The hooks of src/api/todos *)

Lemma GetOneTodo_url_inj (slug slug' : string) :
  GetOneTodo.url slug = GetOneTodo.url slug' → slug = slug'.
Proof. unfold GetOneTodo.url. cbn. intros Heq. by injection Heq. Qed.

Lemma prop_insert_eq (k : string) (v : value) (o : obj) :
  prop k (<[k := v]> o) = v.
Proof. unfold prop. by rewrite lookup_insert_eq. Qed.

Lemma prop_insert_ne (k k' : string) (v : value) (o : obj) :
  k ≠ k' → prop k' (<[k := v]> o) = prop k' o.
Proof. intros. unfold prop. by rewrite lookup_insert_ne. Qed.

Lemma prop_union_r (o1 o2 : obj) (k : string) :
  o1 !! k = None → prop k (o1 ∪ o2) = prop k o2.
Proof. intros. unfold prop. by rewrite lookup_union_r. Qed.

Lemma bind_get {World} (k : string) (o : obj) (f : value → M World value) w :
  (get k (VObj o) ≫= f) w = f (prop k o) w.
Proof. reflexivity. Qed.

Section hooks.
Context {World : Type}.
Variable axios : value → M World value.
Variable other : N → value → M World value.

Lemma useTodosQuery_url input w :
  requestUrl (endpoints axios other) (prop "url" todosOptions) input w
  = (Returned (VStr GetTodos.url), w).
Proof. reflexivity. Qed.

Lemma useTodoQuery_url (o : obj) slug w :
  o !! "slug" = Some (VStr slug) →
  requestUrl (endpoints axios other) (prop "url" todoOptions) (VObj o) w
  = (Returned (VStr (GetOneTodo.url slug)), w).
Proof.
  intros Hslug.
  change (prop "url" todoOptions) with (VFun 2).
  unfold requestUrl. cbn [call]. unfold endpoints, get, mbind, M_bind, mret, M_ret.
  by rewrite (prop_lookup _ _ _ Hslug).
Qed.

(** X7: [useTodosQuery] reaches [useQuery] for every input, the missing
    one included, without touching the world, and the key is
    ["GET", "/todos", params] with the call-site [params], or [undefined]
    in their place when they are [undefined] or [null]. *)
Theorem useTodosQuery_key instance w :
  ∃ opts key,
    (∀ useQuery,
       useTodosQuery axios useQuery other instance w
       = (query ← useQuery (VObj opts);
          mret (VObj (<["queryKey" := key]> (ownProps query)))) w) ∧
    opts !! "queryKey" = Some key ∧
    key = VArr [VStr "GET"; VStr "/todos";
                nullish (prop "params" instance) VUndefined].
Proof.
  pose proof (createQueryHook_delegates (endpoints axios other)
                todosOptions instance w _ _ (useTodosQuery_url _ w)) as Hd.
  cbv zeta in Hd.
  eexists _, _.
  split; [exact Hd|].
  split. { rewrite lookup_insert_ne by done. apply lookup_insert_eq. }
  reflexivity.
Qed.

(** X8: the function that [useTodosQuery] hands to [useQuery], called with
    a context that has no [input], [params] or [axiosConfig] of its own,
    makes one Axios request and settles with the [data] of the response: a
    failed request fails it with the same error, a response without
    [data] gives [undefined], a [null] response a TypeError.  The request
    goes to "/todos" with method "GET" and with the effective parameters as
    they are; every other member of the call-site [axiosConfig] is part of
    the request unchanged. *)
Theorem useTodosQuery_request instance w :
  ∃ opts key wrapper,
    (∀ useQuery,
       useTodosQuery axios useQuery other instance w
       = (query ← useQuery (VObj opts);
          mret (VObj (<["queryKey" := key]> (ownProps query)))) w) ∧
    opts !! "queryFn" = Some wrapper ∧
    ∀ ctx, (∀ k, k ∈ requestNames → ownProps ctx !! k = None) →
      ∃ config,
        (∀ w2, call (endpoints axios other) wrapper ctx w2
               = (response ← axios (VObj config); get "data" response) w2) ∧
        config !! "url" = Some (VStr "/todos") ∧
        config !! "method" = Some (VStr "GET") ∧
        config !! "params" = Some (nullish (prop "params" instance) VUndefined) ∧
        (∀ k, k ∉ transportNames →
              config !! k = ownProps (prop "axiosConfig" instance) !! k).
Proof.
  pose proof (createQueryHook_delegates (endpoints axios other)
                todosOptions instance w _ _ (useTodosQuery_url _ w)) as Hd.
  cbv zeta in Hd.
  eexists _, _, _.
  split; [exact Hd|].
  split; [apply lookup_insert_eq|].
  intros ctx Hctx. eexists.
  split; [|split; [|split; [|split]]].
  - intros w2. rewrite (call_VQueryFn (endpoints axios other)).
    change (prop "queryFn" todosOptions) with (VFun 1).
    cbn [call]. unfold endpoints at 1.
    rewrite bind_get, prop_union_r by (apply Hctx; compute_done).
    by rewrite prop_insert_eq.
  - rewrite !lookup_insert_ne by done. apply lookup_insert_eq.
  - rewrite lookup_insert_ne by done. apply lookup_insert_eq.
  - apply lookup_insert_eq.
  - intros k Hk.
    by rewrite !lookup_insert_ne by (intros <-; apply Hk; compute_done).
Qed.

(** X9: for an input whose [slug] is a string, [useTodoQuery] reaches
    [useQuery] without touching the world, with the key
    ["GET", "/todos/" + slug, params], where [params] are the call-site
    ones or else [{verbose: true}].  Two invocations with different slugs
    never have the same key. *)
Theorem useTodoQuery_key instance instance' (o o' : obj) slug slug' w w' :
  prop "input" instance = VObj o →
  o !! "slug" = Some (VStr slug) →
  prop "input" instance' = VObj o' →
  o' !! "slug" = Some (VStr slug') →
  ∃ opts opts' key key',
    (∀ useQuery,
       useTodoQuery axios useQuery other instance w
       = (query ← useQuery (VObj opts);
          mret (VObj (<["queryKey" := key]> (ownProps query)))) w) ∧
    (∀ useQuery,
       useTodoQuery axios useQuery other instance' w'
       = (query ← useQuery (VObj opts');
          mret (VObj (<["queryKey" := key']> (ownProps query)))) w') ∧
    opts !! "queryKey" = Some key ∧
    opts' !! "queryKey" = Some key' ∧
    key = VArr [VStr "GET"; VStr ("/todos/" +:+ slug);
                nullish (prop "params" instance)
                  (VObj {[ "verbose" := VBool true ]})] ∧
    key' = VArr [VStr "GET"; VStr ("/todos/" +:+ slug');
                 nullish (prop "params" instance')
                   (VObj {[ "verbose" := VBool true ]})] ∧
    (slug ≠ slug' → key ≠ key').
Proof.
  intros Hinput Hslug Hinput' Hslug'.
  pose proof (useTodoQuery_url o slug w Hslug) as Hu.
  pose proof (useTodoQuery_url o' slug' w' Hslug') as Hu'.
  rewrite <- Hinput in Hu. rewrite <- Hinput' in Hu'.
  pose proof (createQueryHook_delegates _ _ _ _ _ _ Hu) as Hd.
  pose proof (createQueryHook_delegates _ _ _ _ _ _ Hu') as Hd'.
  cbv zeta in Hd, Hd'.
  eexists _, _, _, _.
  split; [exact Hd|]. split; [exact Hd'|].
  split. { rewrite lookup_insert_ne by done. apply lookup_insert_eq. }
  split. { rewrite lookup_insert_ne by done. apply lookup_insert_eq. }
  split; [reflexivity|]. split; [reflexivity|].
  intros Hne [= Heq _]. by apply Hne, GetOneTodo_url_inj.
Qed.

(** X10: without an [input], or with [input: null], [useTodoQuery] throws
    a TypeError: the world is as before and [useQuery] is not called. *)
Theorem useTodoQuery_without_input instance w useQuery :
  prop "input" instance = VUndefined ∨ prop "input" instance = VNull →
  useTodoQuery axios useQuery other instance w = (Thrown typeError, w).
Proof.
  intros Hinput.
  apply createQueryHook_throws.
  change (prop "url" todoOptions) with (VFun 2).
  by destruct Hinput as [-> | ->].
Qed.

(** X11: the function that [useTodoQuery] hands to [useQuery], called with
    a context that has no [input], [params] or [axiosConfig] of its own,
    makes one Axios request and settles with the [data] of the response,
    as X8 has it.  The request goes to "/todos/" + slug with method "GET";
    its [params] are the one member [verbose], the string "1" when the
    [verbose] of the effective parameters is truthy and "0" otherwise.  So
    it is "1" when the call site leaves [params] out, and "0" when it
    passes an object without [verbose]: the factory's [verbose: true] is
    not added to it. *)
Theorem useTodoQuery_request instance (o : obj) slug w :
  prop "input" instance = VObj o →
  o !! "slug" = Some (VStr slug) →
  let params :=
    nullish (prop "params" instance) (VObj {[ "verbose" := VBool true ]}) in
  ∃ opts key wrapper,
    (∀ useQuery,
       useTodoQuery axios useQuery other instance w
       = (query ← useQuery (VObj opts);
          mret (VObj (<["queryKey" := key]> (ownProps query)))) w) ∧
    opts !! "queryFn" = Some wrapper ∧
    ∀ ctx, (∀ k, k ∈ requestNames → ownProps ctx !! k = None) →
      ∃ config verbose,
        (∀ w2, call (endpoints axios other) wrapper ctx w2
               = (response ← axios (VObj config); get "data" response) w2) ∧
        config !! "url" = Some (VStr ("/todos/" +:+ slug)) ∧
        config !! "method" = Some (VStr "GET") ∧
        config !! "params" = Some (VObj {[ "verbose" := VStr verbose ]}) ∧
        verbose = (if truthy (optGet "verbose" params) then "1" else "0") ∧
        (prop "params" instance = VUndefined ∨ prop "params" instance = VNull →
         verbose = "1") ∧
        (∀ p : obj, prop "params" instance = VObj p → p !! "verbose" = None →
         verbose = "0") ∧
        (∀ k, k ∉ transportNames →
              config !! k = ownProps (prop "axiosConfig" instance) !! k).
Proof.
  intros Hinput Hslug params.
  pose proof (useTodoQuery_url o slug w Hslug) as Hu.
  rewrite <- Hinput in Hu.
  pose proof (createQueryHook_delegates _ _ _ _ _ _ Hu) as Hd.
  cbv zeta in Hd.
  eexists _, _, _.
  split; [exact Hd|].
  split; [apply lookup_insert_eq|].
  intros ctx Hctx. eexists _, _.
  split; [|split; [|split; [|split; [|split; [|split; [|split]]]]]].
  - intros w2. rewrite (call_VQueryFn (endpoints axios other)).
    change (prop "queryFn" todoOptions) with (VFun 3).
    cbn [call]. unfold endpoints at 1.
    rewrite bind_get, prop_union_r by (apply Hctx; compute_done).
    rewrite prop_insert_eq.
    rewrite bind_get, prop_union_r by (apply Hctx; compute_done).
    rewrite prop_insert_ne, prop_insert_eq by done.
    unfold objlit; cbn [foldl define ownProps].
    rewrite insert_empty, (right_id ∅ (∪)). reflexivity.
  - rewrite !lookup_insert_ne by done. apply lookup_insert_eq.
  - rewrite !lookup_insert_ne by done. apply lookup_insert_eq.
  - apply lookup_insert_eq.
  - reflexivity.
  - subst params. by intros [-> | ->].
  - subst params. intros p -> Hverbose. cbn [nullish optGet].
    unfold prop. by rewrite Hverbose.
  - intros k Hk.
    by rewrite !lookup_insert_ne by (intros <-; apply Hk; compute_done).
Qed.

(** X12: the key that [GetOneTodo.queryKey] builds is never the key of a
    query of [useTodoQuery], nor the beginning of one: the first elements,
    'get/todos' and "GET", differ. *)
Theorem GetOneTodo_queryKey_is_no_hook_key instance (o : obj) slug w :
  prop "input" instance = VObj o →
  o !! "slug" = Some (VStr slug) →
  ∃ opts elems,
    (∀ useQuery,
       useTodoQuery axios useQuery other instance w
       = (query ← useQuery (VObj opts);
          mret (VObj (<["queryKey" := VArr elems]> (ownProps query)))) w) ∧
    opts !! "queryKey" = Some (VArr elems) ∧
    ∀ slug' params helper,
      GetOneTodo.queryKey slug' params = VArr helper →
      ¬ helper `prefix_of` elems.
Proof.
  intros Hinput Hslug.
  pose proof (useTodoQuery_url o slug w Hslug) as Hu.
  rewrite <- Hinput in Hu.
  pose proof (createQueryHook_delegates _ _ _ _ _ _ Hu) as Hd.
  cbv zeta in Hd.
  eexists _, _.
  split; [exact Hd|].
  split. { rewrite lookup_insert_ne by done. apply lookup_insert_eq. }
  intros slug' params helper [= <-] [tail Hprefix].
  discriminate Hprefix.
Qed.

(** X13: the key that [GetTodos.queryKey] builds is never the key of a
    query of [useTodosQuery], nor the beginning of one: the first elements,
    "todos/many" and "GET", differ. *)
Theorem GetTodos_queryKey_is_no_hook_key instance w :
  ∃ opts elems,
    (∀ useQuery,
       useTodosQuery axios useQuery other instance w
       = (query ← useQuery (VObj opts);
          mret (VObj (<["queryKey" := VArr elems]> (ownProps query)))) w) ∧
    opts !! "queryKey" = Some (VArr elems) ∧
    ∀ params helper,
      GetTodos.queryKey params = VArr helper →
      ¬ helper `prefix_of` elems.
Proof.
  pose proof (createQueryHook_delegates (endpoints axios other)
                todosOptions instance w _ _ (useTodosQuery_url _ w)) as Hd.
  cbv zeta in Hd.
  eexists _, _.
  split; [exact Hd|].
  split. { rewrite lookup_insert_ne by done. apply lookup_insert_eq. }
  intros params helper [= <-] [tail Hprefix].
  discriminate Hprefix.
Qed.
End hooks.

(** ** The edges and the hooks at the endpoints *)

Lemma url_not_callable_throws_witness :
  isString (prop "url" numberUrlOptions) = false ∧
  callable (prop "url" numberUrlOptions) = false ∧
  createQueryHook todos (eager todos) numberUrlOptions pageTwo 0%nat
    = (Thrown typeError, 0%nat).
Proof.
  split; [reflexivity|]. split; [reflexivity|].
  apply (url_not_callable_throws todos numberUrlOptions pageTwo 0%nat
           (eager todos)); reflexivity.
Defined.

Lemma queryFn_not_callable_rejects_witness :
  requestUrl todos (prop "url" noQueryFnOptions) (prop "input" pageTwo) 0%nat
    = (Returned (VStr "/todos"), 0%nat) ∧
  callable (prop "queryFn" noQueryFnOptions) = false ∧
  ∃ opts key wrapper,
    delegates todos noQueryFnOptions pageTwo 0%nat opts key 0%nat ∧
    opts !! "queryFn" = Some wrapper ∧
    call todos wrapper signalContext 3%nat = (Thrown typeError, 3%nat).
Proof.
  split; [reflexivity|]. split; [reflexivity|].
  destruct (queryFn_not_callable_rejects todos
              noQueryFnOptions pageTwo 0%nat (VStr "/todos") 0%nat
              eq_refl eq_refl)
    as (opts & key & wrapper & Hd & Hq & Hcall).
  exists opts, key, wrapper.
  split; [assumption|]. split; [assumption|]. apply Hcall.
Defined.

Lemma context_members_win_witness :
  requestUrl todos (prop "url" todoOptions) (prop "input" todoX) 0%nat
    = (Returned (VStr "/todos/x"), 0%nat) ∧
  ∃ opts key wrapper arg,
    delegates todos todoOptions todoX 0%nat opts key 0%nat ∧
    opts !! "queryFn" = Some wrapper ∧
    forwards todos wrapper inputContext (VFun 3) arg ∧
    arg !! "input" = Some (VNum 7) ∧
    arg !! "signal" = Some VNull ∧
    arg !! "meta" = None.
Proof.
  split; [reflexivity|].
  destruct (context_members_win todos
              todoOptions todoX 0%nat (VStr "/todos/x") 0%nat eq_refl)
    as (opts & key & wrapper & Hd & Hq & Hctx).
  destruct (Hctx inputContext) as (arg & Hf & Hmembers & Hnone).
  exists opts, key, wrapper, arg.
  split; [assumption|]. split; [assumption|]. split; [apply Hf|].
  split; [apply Hmembers; reflexivity|].
  split; [apply Hmembers; reflexivity|].
  apply Hnone; [compute_done | reflexivity].
Defined.

Lemma key_of_input_and_params_witness :
  prop "input" todoXTimeout = prop "input" todoX ∧
  prop "params" todoXTimeout = prop "params" todoX ∧
  requestUrl todos (prop "url" todoOptions) (prop "input" todoX) 0%nat
    = (Returned (VStr "/todos/x"), 0%nat) ∧
  ∃ opts opts' key,
    delegates todos todoOptions todoX 0%nat opts key 0%nat ∧
    delegates todos todoOptions todoXTimeout 0%nat opts' key 0%nat ∧
    opts !! "queryKey" = Some key ∧
    opts' !! "queryKey" = Some key.
Proof.
  split; [reflexivity|]. split; [reflexivity|]. split; [reflexivity|].
  destruct (key_of_input_and_params todos
              todoOptions todoX todoXTimeout 0%nat (VStr "/todos/x") 0%nat
              eq_refl eq_refl eq_refl)
    as (opts & opts' & key & Hd & Hd' & Hk & Hk' & _).
  exists opts, opts', key.
  split; [assumption|]. split; [assumption|]. split; assumption.
Defined.

Lemma nullish_option_overrides_witness :
  ("staleTime" ∉ instanceNames) ∧
  ("staleTime" ∉ ["queryKey"; "queryFn"]) ∧
  pageTwoUndefined !! "staleTime" = Some VUndefined ∧
  staleOptions !! "staleTime" = Some (VNum 300000) ∧
  requestUrl todos (prop "url" staleOptions) (prop "input" pageTwoUndefined) 0%nat
    = (Returned (VStr "/todos"), 0%nat) ∧
  ∃ opts key,
    delegates todos staleOptions pageTwoUndefined 0%nat opts key 0%nat ∧
    opts !! "staleTime" = Some VUndefined.
Proof.
  assert ("staleTime" ∉ instanceNames) as Hk by compute_done.
  assert ("staleTime" ∉ ["queryKey"; "queryFn"]) as Hk' by compute_done.
  split; [exact Hk|]. split; [exact Hk'|].
  split; [reflexivity|]. split; [reflexivity|]. split; [reflexivity|].
  apply (nullish_option_overrides todos staleOptions pageTwoUndefined
           0%nat (VStr "/todos") 0%nat "staleTime" VUndefined
           Hk Hk' eq_refl (or_introl eq_refl) eq_refl).
Defined.

Lemma invoker_runs_only_url_witness :
  createQueryHook todos pending todosOptions pageTwo 0%nat
  = createQueryHook offline pending todosOptions pageTwo 0%nat.
Proof.
  apply (invoker_runs_only_url todos offline pending todosOptions pageTwo 0%nat).
  - intros a b c d e Hurl. vm_compute in Hurl. discriminate Hurl.
  - intros f Hurl. vm_compute in Hurl. injection Hurl as <-. reflexivity.
Defined.

Lemma useTodoQuery_key_witness :
  prop "input" todoX = VObj {[ "slug" := VStr "x" ]} ∧
  prop "input" todoY = VObj {[ "slug" := VStr "y" ]} ∧
  ∃ opts opts' key key',
    (∀ useQuery,
       useTodoQuery server useQuery unknown todoX 0%nat
       = (query ← useQuery (VObj opts);
          mret (VObj (<["queryKey" := key]> (ownProps query)))) 0%nat) ∧
    (∀ useQuery,
       useTodoQuery server useQuery unknown todoY 4%nat
       = (query ← useQuery (VObj opts');
          mret (VObj (<["queryKey" := key']> (ownProps query)))) 4%nat) ∧
    key = VArr [VStr "GET"; VStr "/todos/x"; VObj {[ "verbose" := VBool true ]}] ∧
    key' = VArr [VStr "GET"; VStr "/todos/y"; VObj {[ "verbose" := VBool true ]}] ∧
    key ≠ key'.
Proof.
  split; [reflexivity|]. split; [reflexivity|].
  destruct (useTodoQuery_key server unknown todoX todoY
              {[ "slug" := VStr "x" ]} {[ "slug" := VStr "y" ]}
              "x" "y" 0%nat 4%nat eq_refl eq_refl eq_refl eq_refl)
    as (opts & opts' & key & key' & Hrun & Hrun' & _ & _ & Hkey & Hkey' & Hne).
  exists opts, opts', key, key'.
  split; [assumption|]. split; [assumption|].
  split; [assumption|]. split; [assumption|].
  apply Hne. discriminate.
Defined.

Lemma useTodoQuery_without_input_witness :
  prop "input" todoNoInput = VUndefined ∧
  useTodoQuery server (eager todos) unknown todoNoInput 0%nat
    = (Thrown typeError, 0%nat).
Proof.
  split; [reflexivity|].
  apply (useTodoQuery_without_input server unknown todoNoInput 0%nat
           (eager todos) (or_introl eq_refl)).
Defined.

Lemma useTodoQuery_request_witness :
  prop "input" todoXEmpty = VObj {[ "slug" := VStr "x" ]} ∧
  ∃ opts key wrapper config,
    (∀ useQuery,
       useTodoQuery server useQuery unknown todoXEmpty 0%nat
       = (query ← useQuery (VObj opts);
          mret (VObj (<["queryKey" := key]> (ownProps query)))) 0%nat) ∧
    opts !! "queryFn" = Some wrapper ∧
    (∀ w2, call todos wrapper signalContext w2
           = (response ← server (VObj config); get "data" response) w2) ∧
    config !! "url" = Some (VStr "/todos/x") ∧
    config !! "method" = Some (VStr "GET") ∧
    config !! "params" = Some (VObj {[ "verbose" := VStr "0" ]}).
Proof.
  split; [reflexivity|].
  destruct (useTodoQuery_request server unknown todoXEmpty
              {[ "slug" := VStr "x" ]} "x" 0%nat eq_refl eq_refl)
    as (opts & key & wrapper & Hrun & Hq & Hctx).
  destruct (Hctx signalContext)
    as (config & verbose & Hcall & Hurl & Hmethod & Hparams & _ & _ & Hzero & _).
  { intros k Hk.
    repeat (apply elem_of_cons in Hk as [->|Hk]; [reflexivity|]).
    by apply elem_of_nil in Hk. }
  exists opts, key, wrapper, config.
  split; [assumption|]. split; [assumption|]. split; [assumption|].
  split; [assumption|]. split; [assumption|].
  rewrite Hparams. by rewrite (Hzero ∅ eq_refl eq_refl).
Defined.

Lemma GetOneTodo_queryKey_is_no_hook_key_witness :
  prop "input" todoX = VObj {[ "slug" := VStr "x" ]} ∧
  ∃ opts elems,
    (∀ useQuery,
       useTodoQuery server useQuery unknown todoX 0%nat
       = (query ← useQuery (VObj opts);
          mret (VObj (<["queryKey" := VArr elems]> (ownProps query)))) 0%nat) ∧
    opts !! "queryKey" = Some (VArr elems) ∧
    VArr elems ≠ GetOneTodo.queryKey "x" (VObj {[ "verbose" := VBool true ]}).
Proof.
  split; [reflexivity|].
  destruct (GetOneTodo_queryKey_is_no_hook_key server unknown todoX
              {[ "slug" := VStr "x" ]} "x" 0%nat eq_refl eq_refl)
    as (opts & elems & Hrun & Hk & Hprefix).
  exists opts, elems.
  split; [assumption|]. split; [assumption|].
  intros Heq. apply (Hprefix "x" (VObj {[ "verbose" := VBool true ]}) elems).
  - by rewrite Heq.
  - reflexivity.
Defined.

Lemma useTodosQuery_request_witness :
  ∃ opts key wrapper config,
    (∀ useQuery,
       useTodosQuery server useQuery unknown pageTwo 0%nat
       = (query ← useQuery (VObj opts);
          mret (VObj (<["queryKey" := key]> (ownProps query)))) 0%nat) ∧
    opts !! "queryFn" = Some wrapper ∧
    (∀ w2, call todos wrapper signalContext w2
           = (response ← server (VObj config); get "data" response) w2) ∧
    config !! "url" = Some (VStr "/todos") ∧
    config !! "method" = Some (VStr "GET") ∧
    config !! "params" = Some (VObj {[ "page" := VNum 2 ]}).
Proof.
  destruct (useTodosQuery_request server unknown pageTwo 0%nat)
    as (opts & key & wrapper & Hrun & Hq & Hctx).
  destruct (Hctx signalContext)
    as (config & Hcall & Hurl & Hmethod & Hparams & _).
  { intros k Hk.
    repeat (apply elem_of_cons in Hk as [->|Hk]; [reflexivity|]).
    by apply elem_of_nil in Hk. }
  exists opts, key, wrapper, config.
  split; [assumption|]. split; [assumption|]. split; [assumption|].
  split; [assumption|]. split; assumption.
Defined.
